(** * not_cloud_init: the command-line driver and the assembly engine

    A shallow embedding of [src/not_cloud_init/cli.py] and, for the parts
    of the repository that the driver only calls, of the assembly engine as
    the specification describes it.

    The driver is effectful: it prints, asks the operator, tests whether a
    path exists, may leave through [sys.exit] and finally calls the
    generator.  It is embedded in a small monad that records every effect
    in a trace and carries the early exit. *)

From Stdlib Require Import String List Bool ZArith Lia Sorted.
Import ListNotations.
Open Scope string_scope.
Open Scope list_scope.

Set Implicit Arguments.

(** ** Effects of the driver *)

(** The keyword arguments of the call to [create_cloud_init_config]
    (cli.py, lines 149-157). *)
Record GeneratorCall : Type := mkCall {
  gc_output_path : string;
  gc_interactive : bool;
  gc_gather_public_keys : bool;
  gc_password : option string;
  gc_disabled_configs : list string;
  gc_rename_to_ubuntu_user : bool;
  gc_quiet : bool
}.

(** Everything the driver does to the outside world, in program order.
    Queries carry the answer the world gave. *)
Inductive Event : Type :=
| ConfigureLogging
| SetQuietMode (on : bool)
| PrintError (msg : string)
| PrintWarning (msg : string)
| PrintInfo (msg : string)
| PathExists (path : string) (found : bool)
| Prompt (text default : string) (answer : string)
| Confirm (text : string) (default : bool) (answer : bool)
| CreateCloudInitConfig (call : GeneratorCall).

(** What the driver cannot decide by itself: the state of the filesystem
    and what the operator answers at the terminal. *)
Record World : Type := mkWorld {
  path_exists : string -> bool;
  prompt_reply : string -> string -> string;
  confirm_reply : string -> bool -> bool
}.

(** A run either returns a value or leaves through [sys.exit]. *)
Inductive Outcome (A : Type) : Type :=
| Returned (a : A)
| SysExit (code : Z).
Arguments Returned {A} a.
Arguments SysExit {A} code.

Definition Run (A : Type) : Type := World -> list Event * Outcome A.

Definition ret {A} (a : A) : Run A := fun _ => ([], Returned a).

Definition bind {A B} (m : Run A) (k : A -> Run B) : Run B :=
  fun w =>
    match m w with
    | (t1, Returned a) => let (t2, o) := k a w in (t1 ++ t2, o)
    | (t1, SysExit c) => (t1, SysExit c)
    end.

Declare Scope run_scope.
Delimit Scope run_scope with run.
Notation "x <- m ;; k" := (bind m (fun x => k))
  (at level 61, m at next level, right associativity) : run_scope.
Notation "m ;; k" := (bind m (fun _ => k))
  (at level 61, right associativity) : run_scope.
Open Scope run_scope.

Definition emit (e : Event) : Run unit := fun _ => ([e], Returned tt).

Definition sys_exit {A} (code : Z) : Run A := fun _ => ([], SysExit code).

Definition when (c : bool) (m : Run unit) : Run unit :=
  if c then m else ret tt.

Definition configure_logging : Run unit := emit ConfigureLogging.
Definition set_quiet_mode (on : bool) : Run unit := emit (SetQuietMode on).
Definition print_error (msg : string) : Run unit := emit (PrintError msg).
Definition print_warning (msg : string) : Run unit := emit (PrintWarning msg).
Definition print_info (msg : string) : Run unit := emit (PrintInfo msg).

Definition os_path_exists (path : string) : Run bool :=
  fun w => let b := path_exists w path in ([PathExists path b], Returned b).

Definition click_prompt (text default : string) : Run string :=
  fun w => let s := prompt_reply w text default in
           ([Prompt text default s], Returned s).

Definition click_confirm (text : string) (default : bool) : Run bool :=
  fun w => let b := confirm_reply w text default in
           ([Confirm text default b], Returned b).

Definition create_cloud_init_config (call : GeneratorCall) : Run unit :=
  emit (CreateCloudInitConfig call).

Definition trace {A} (r : list Event * Outcome A) : list Event := fst r.
Definition outcome {A} (r : list Event * Outcome A) : Outcome A := snd r.

(** ** The driver (cli.py) *)

(** The parameters of [cli], as click hands them over. *)
Record Args : Type := mkArgs {
  interactive : bool;
  quiet : bool;
  output_path : string;
  force : bool;
  gather_public_keys : bool;
  password : option string;
  disable_apt : bool;
  disable_snap : bool;
  disable_ssh : bool;
  disable_user : bool;
  enable_hostname : bool;
  rename_to_ubuntu_user : bool
}.

Definition default_output_path : string := "cloud-config.yaml".

Definition conflict_message : string :=
  "Cannot use interactive mode with disabling or enabling specific configurations.".

Definition exists_message (p : string) : string :=
  ("Output file " ++ p ++
   " already exists. Use --force or -f to allow writing over existing file")%string.

Definition overwrite_message (p : string) : string :=
  ("Output file " ++ p ++ " already exists. Will overwrite file.")%string.

Definition prompt_text : string :=
  "Enter the path to save the cloud-init config file".

Definition selected_message (p : string) : string :=
  (p ++ " has been selected as the output path.")%string.

Definition confirm_text (p : string) : string :=
  ("The file '" ++ p ++ "' already exists. Do you want to overwrite it?")%string.

Definition abort_message : string :=
  "Aborting because the file already exists and the user chose not to overwrite.".

(** [get_output_path] (cli.py, lines 162-190). *)
Definition get_output_path (output_path : string) : Run string :=
  output_path <-
    (if String.eqb output_path default_output_path
     then click_prompt prompt_text default_output_path
     else ret output_path) ;;
  print_info (selected_message output_path) ;;
  found <- os_path_exists output_path ;;
  when found
    (overwrite <- click_confirm (confirm_text output_path) false ;;
     when (negb overwrite) (print_error abort_message ;; sys_exit 1)) ;;
  ret output_path.

(** The test of line 124. *)
Definition module_flag_given (a : Args) : bool :=
  disable_apt a || disable_snap a || disable_ssh a || disable_user a
  || enable_hostname a.

(** [list.append] under an [if]. *)
Definition append_if (c : bool) (x : string) (l : list string) : list string :=
  if c then l ++ [x] else l.

(** The list built in lines 137-147. *)
Definition disabled_configs (a : Args) : list string :=
  let l := [] in
  let l := append_if (disable_apt a) "apt" l in
  let l := append_if (disable_snap a) "snap" l in
  let l := append_if (disable_ssh a) "ssh" l in
  let l := append_if (disable_user a) "user" l in
  let l := append_if (negb (enable_hostname a)) "hostname" l in
  l.

(** [cli] (cli.py, lines 92-157).  In the [elif] of line 130 Python
    evaluates [os.path.exists] before [not force]. *)
Definition cli (a : Args) : Run unit :=
  configure_logging ;;
  when (quiet a) (set_quiet_mode true) ;;
  when (interactive a && module_flag_given a)
    (print_error conflict_message ;; sys_exit 1) ;;
  output_path <-
    (if interactive a && negb (force a)
     then get_output_path (output_path a)
     else
       found <- os_path_exists (output_path a) ;;
       if found && negb (force a)
       then print_error (exists_message (output_path a)) ;; sys_exit 1
       else if force a
       then print_warning (overwrite_message (output_path a)) ;;
            ret (output_path a)
       else ret (output_path a)) ;;
  create_cloud_init_config
    {| gc_output_path := output_path;
       gc_interactive := interactive a;
       gc_gather_public_keys := gather_public_keys a;
       gc_password := password a;
       gc_disabled_configs := disabled_configs a;
       gc_rename_to_ubuntu_user := rename_to_ubuntu_user a;
       gc_quiet := quiet a |}.

(** The options click declares whose name starts with [--disable-]
    (lines 59-82), as the names of those the caller passed. *)
Definition passed_disable_flags (a : Args) : list string :=
  (if disable_apt a then ["apt"] else []) ++
  (if disable_snap a then ["snap"] else []) ++
  (if disable_ssh a then ["ssh"] else []) ++
  (if disable_user a then ["user"] else []).

(** The record the generator is called with in lines 149-157. *)
Definition call_for (a : Args) (path : string) : GeneratorCall :=
  {| gc_output_path := path;
     gc_interactive := interactive a;
     gc_gather_public_keys := gather_public_keys a;
     gc_password := password a;
     gc_disabled_configs := disabled_configs a;
     gc_rename_to_ubuntu_user := rename_to_ubuntu_user a;
     gc_quiet := quiet a |}.

(** The value of [output_path] after line 134: what [get_output_path]
    returns when it is called, the caller's path otherwise. *)
Definition chosen_path (a : Args) (w : World) : string :=
  if interactive a && negb (force a)
  then if String.eqb (output_path a) default_output_path
       then prompt_reply w prompt_text default_output_path
       else output_path a
  else output_path a.

(** Classification of events. *)
Definition is_generator_call (e : Event) : bool :=
  match e with CreateCloudInitConfig _ => true | _ => false end.

Definition is_filesystem_access (e : Event) : bool :=
  match e with
  | PathExists _ _ | CreateCloudInitConfig _ => true
  | _ => false
  end.

Definition is_operator_question (e : Event) : bool :=
  match e with
  | Prompt _ _ _ | Confirm _ _ _ => true
  | _ => false
  end.

Definition is_prompt (e : Event) : bool :=
  match e with Prompt _ _ _ => true | _ => false end.

Definition is_confirm (e : Event) : bool :=
  match e with Confirm _ _ _ => true | _ => false end.

Definition is_warning (e : Event) : bool :=
  match e with PrintWarning _ => true | _ => false end.

(** Some runs to try the model on. *)
Definition plain_args : Args :=
  {| interactive := false; quiet := false; output_path := default_output_path;
     force := false; gather_public_keys := false; password := None;
     disable_apt := false; disable_snap := false; disable_ssh := false;
     disable_user := false; enable_hostname := false;
     rename_to_ubuntu_user := false |}.

Definition interactive_args (path : string) : Args :=
  {| interactive := true; quiet := false; output_path := path;
     force := false; gather_public_keys := false; password := None;
     disable_apt := false; disable_snap := false; disable_ssh := false;
     disable_user := false; enable_hostname := false;
     rename_to_ubuntu_user := false |}.

Definition forced_args : Args :=
  {| interactive := false; quiet := false; output_path := default_output_path;
     force := true; gather_public_keys := false; password := None;
     disable_apt := false; disable_snap := false; disable_ssh := false;
     disable_user := false; enable_hostname := false;
     rename_to_ubuntu_user := false |}.

Definition forced_interactive_args : Args :=
  {| interactive := true; quiet := false; output_path := "out.yaml";
     force := true; gather_public_keys := false; password := None;
     disable_apt := false; disable_snap := false; disable_ssh := false;
     disable_user := false; enable_hostname := false;
     rename_to_ubuntu_user := false |}.

Definition forced_conflict_args : Args :=
  {| interactive := true; quiet := false; output_path := default_output_path;
     force := true; gather_public_keys := false; password := None;
     disable_apt := true; disable_snap := false; disable_ssh := false;
     disable_user := false; enable_hostname := false;
     rename_to_ubuntu_user := false |}.

Definition forced_hostname_args : Args :=
  {| interactive := true; quiet := false; output_path := default_output_path;
     force := true; gather_public_keys := false; password := None;
     disable_apt := false; disable_snap := false; disable_ssh := false;
     disable_user := false; enable_hostname := true;
     rename_to_ubuntu_user := false |}.

Definition snapless_interactive_args : Args :=
  {| interactive := true; quiet := false; output_path := "out.yaml";
     force := false; gather_public_keys := false; password := None;
     disable_apt := false; disable_snap := true; disable_ssh := false;
     disable_user := false; enable_hostname := false;
     rename_to_ubuntu_user := false |}.

Definition empty_disk : World :=
  {| path_exists := fun _ => false;
     prompt_reply := fun _ d => d;
     confirm_reply := fun _ d => d |}.

Definition full_disk : World :=
  {| path_exists := fun _ => true;
     prompt_reply := fun _ d => d;
     confirm_reply := fun _ d => d |}.

(** ** The assembly engine

    [create_cloud_init_config] lives in [not_cloud_init/generator.py]; the
    driver above is its only caller in the sources at hand.  The engine is
    therefore written down from the specification (sections 3 to 5). *)

(** Modelled from the spec: [ModuleName], "one of a fixed closed set
    {apt, snap, ssh, user, hostname}" (section 3); the module type of
    generator.py is missing. *)
Inductive ModuleName : Type := apt | snap | ssh | user | hostname.

(** Modelled from the spec: the name under which the driver's
    [disabled_configs] refers to a module of generator.py. *)
Definition module_name (m : ModuleName) : string :=
  match m with
  | apt => "apt" | snap => "snap" | ssh => "ssh"
  | user => "user" | hostname => "hostname"
  end.

(** Modelled from the spec: [ModuleName] "used as both an identity key and
    an ordering key" (section 3): the rank of a module of generator.py in
    the fixed order. *)
Definition module_index (m : ModuleName) : nat :=
  match m with
  | apt => 0 | snap => 1 | ssh => 2 | user => 3 | hostname => 4
  end.

(** Modelled from the spec: the "fixed module order: apt, snap, ssh, user,
    hostname" (section 4.2) of the module list of generator.py. *)
Definition module_order : list ModuleName := [apt; snap; ssh; user; hostname].

Definition before (m1 m2 : ModuleName) : Prop :=
  module_index m1 < module_index m2.

(** Modelled from the spec: [DisabledSet] (section 3), the
    [disabled_configs] argument of generator.py, as the driver passes it. *)
Definition DisabledSet : Type := list string.

Definition is_disabled (ds : DisabledSet) (m : ModuleName) : bool :=
  existsb (String.eqb (module_name m)) ds.

(** Modelled from the spec: the engine of generator.py "builds the module
    list, filters out any module whose name is in [disabledSet]"
    (section 4.3). *)
Definition enabled_modules (ds : DisabledSet) : list ModuleName :=
  filter (fun m => negb (is_disabled ds m)) module_order.

(** Modelled from the spec: [GatherContext] (section 3), built by
    generator.py from its keyword arguments. *)
Record GatherContext : Type := mkContext {
  ctx_interactive : bool;
  gatherPublicKeys : bool;
  ctx_password : option string;
  renameToUbuntuUser : bool
}.

(** Modelled from the spec: the interactive prompt boundary (section 6),
    [confirm(promptText, defaultValue)] and
    [promptValue(promptText, defaultValue)], which the modules of
    generator.py call. *)
Record Prompter : Type := mkPrompter {
  confirm : string -> bool -> bool;
  promptValue : string -> string -> string
}.

Section AssemblyEngine.

(** The host the modules inspect, the values of a document and the
    errors of gathering are left abstract. *)
Variables Host Value GatherError : Type.

(** Modelled from the spec: [Fragment] and [Document] (section 3),
    mappings from section key to value, of generator.py. *)
Definition Fragment : Type := list (string * Value).
Definition Document : Type := list (string * Value).

(** Modelled from the spec: the result of a module of generator.py,
    "gather(context) -> Fragment | Disabled | Error" (section 4.1). *)
Inductive GatherResult : Type :=
| Gathered (f : Fragment)
| Disabled
| GatherFailed (e : GatherError).

(** Modelled from the spec: the result of [assemble] in generator.py,
    [Succeeded(Document) | Failed(moduleName, error)] (section 4.3),
    and the [MergeInvariantError] of section 7. *)
Inductive AssemblyResult : Type :=
| Succeeded (d : Document)
| Failed (m : ModuleName) (e : GatherError)
| MergeInvariantError (key : string).

(** The five modules: each sees the context, the prompt capability and
    the host, and leaves a host behind. *)
Variable gather :
  ModuleName -> GatherContext -> Prompter -> Host -> GatherResult * Host.

Definition has_key (k : string) (d : Document) : bool :=
  existsb (fun kv => String.eqb k (fst kv)) d.

(** Modelled from the spec: the Fragment Merger of generator.py
    (section 4.2): keys are written in order, and a key that is already
    there makes the merge fail. *)
Fixpoint merge_fragment (d : Document) (f : Fragment) : Document + string :=
  match f with
  | [] => inl d
  | (k, v) :: f' =>
      if has_key k d then inr k else merge_fragment (d ++ [(k, v)]) f'
  end.

Fixpoint merge (d : Document) (fs : list Fragment) : Document + string :=
  match fs with
  | [] => inl d
  | f :: fs' =>
      match merge_fragment d f with
      | inl d' => merge d' fs'
      | inr k => inr k
      end
  end.

(** Modelled from the spec: the engine of generator.py "invokes remaining
    modules strictly in fixed order" and "on a module gathering error"
    aborts "the entire run immediately" (section 4.3); a [Disabled]
    contribution "is a no-op on the Document" (section 4.2). *)
Fixpoint gather_all (ms : list ModuleName) (ctx : GatherContext)
    (p : Prompter) (h : Host)
  : (list Fragment + ModuleName * GatherError) * Host :=
  match ms with
  | [] => (inl [], h)
  | m :: ms' =>
      match gather m ctx p h with
      | (Gathered f, h') =>
          match gather_all ms' ctx p h' with
          | (inl fs, h'') => (inl (f :: fs), h'')
          | (inr err, h'') => (inr err, h'')
          end
      | (Disabled, h') => gather_all ms' ctx p h'
      | (GatherFailed e, h') => (inr (m, e), h')
      end
  end.

(** Modelled from the spec: [assemble(disabledSet, context)] of
    generator.py (section 4.3): the document is "created empty,
    populated by merge steps in module order" (section 3). *)
Definition assemble (ds : DisabledSet) (ctx : GatherContext)
    (p : Prompter) (h : Host) : AssemblyResult * Host :=
  match gather_all (enabled_modules ds) ctx p h with
  | (inl fs, h') =>
      (match merge [] fs with
       | inl d => Succeeded d
       | inr k => MergeInvariantError k
       end, h')
  | (inr (m, e), h') => (Failed m e, h')
  end.

Definition gather_fails (ctx : GatherContext) (p : Prompter) (h : Host)
    (m : ModuleName) (e : GatherError) : Prop :=
  fst (gather m ctx p h) = GatherFailed e.

(** "No module ever mutates host state" (section 5). *)
Definition read_only : Prop :=
  forall m ctx p h, snd (gather m ctx p h) = h.

End AssemblyEngine.

Arguments Gathered {Value GatherError} f.
Arguments Disabled {Value GatherError}.
Arguments GatherFailed {Value GatherError} e.
Arguments Succeeded {Value GatherError} d.
Arguments Failed {Value GatherError} m e.
Arguments MergeInvariantError {Value GatherError} key.

(** A small host to run the engine on: the host is its hostname, values
    are strings, and the ssh module finds its directory unreadable when
    the hostname is empty. *)
Definition toy_gather (m : ModuleName) (ctx : GatherContext) (p : Prompter)
    (h : string) : GatherResult string string * string :=
  (match m with
   | apt => Gathered [("apt", "sources")]
   | snap => Gathered [("snap", "commands")]
   | ssh =>
       if String.eqb h "" then GatherFailed "permission denied"
       else if gatherPublicKeys ctx
            then Gathered [("ssh_authorized_keys", "key")]
            else Disabled
   | user => Gathered [("users", if renameToUbuntuUser ctx then "ubuntu" else h)]
   | hostname => Gathered [("hostname", h)]
   end, h).

Definition toy_context : GatherContext :=
  {| ctx_interactive := false; gatherPublicKeys := true;
     ctx_password := None; renameToUbuntuUser := false |}.

Definition toy_prompter : Prompter :=
  {| confirm := fun _ d => d; promptValue := fun _ d => d |}.

(** A second small host, whose user module, in interactive mode, lets the
    operator confirm or change the user name ("in interactive mode, a
    module may prompt the operator for confirmation or values",
    section 4.1). *)
Definition asking_gather (m : ModuleName) (ctx : GatherContext) (p : Prompter)
    (h : string) : GatherResult string string * string :=
  (match m with
   | user =>
       let name := if renameToUbuntuUser ctx then "ubuntu" else h in
       Gathered [("users", if ctx_interactive ctx
                           then promptValue p "user" name
                           else name)]
   | _ => fst (toy_gather m ctx p h)
   end, h).

Definition interactive_context : GatherContext :=
  {| ctx_interactive := true; gatherPublicKeys := true;
     ctx_password := None; renameToUbuntuUser := false |}.

(** An operator who replaces every proposed value. *)
Definition renaming_prompter : Prompter :=
  {| confirm := fun _ d => d; promptValue := fun _ _ => "admin" |}.

(** ** Further classification of events *)

Definition is_path_check (e : Event) : bool :=
  match e with PathExists _ _ => true | _ => false end.

Definition is_info_message (e : Event) : bool :=
  match e with PrintInfo _ => true | _ => false end.

Definition is_error_message (e : Event) : bool :=
  match e with PrintError _ => true | _ => false end.

Definition is_setup (e : Event) : bool :=
  match e with ConfigureLogging | SetQuietMode _ => true | _ => false end.

(** The path [get_output_path] settles on: the operator's answer to the
    prompt when it is given the default, its argument otherwise
    (lines 169-175). *)
Definition selected_path (path : string) (w : World) : string :=
  if String.eqb path default_output_path
  then prompt_reply w prompt_text default_output_path
  else path.

(** An operator who types a new name at the prompt and refuses to
    overwrite anything. *)
Definition renaming_operator (found : string -> bool) : World :=
  {| path_exists := found;
     prompt_reply := fun _ _ => "fresh.yaml";
     confirm_reply := fun _ _ => false |}.

(** An operator who accepts every overwrite. *)
Definition agreeing_operator : World :=
  {| path_exists := fun _ => true;
     prompt_reply := fun _ d => d;
     confirm_reply := fun _ _ => true |}.

Definition hostname_args : Args :=
  {| interactive := false; quiet := true; output_path := "out.yaml";
     force := false; gather_public_keys := true; password := Some "secret";
     disable_apt := true; disable_snap := true; disable_ssh := true;
     disable_user := true; enable_hostname := true;
     rename_to_ubuntu_user := true |}.

(** ** Tactics for runs of the driver *)

(** Evaluation of the monad, leaving the messages and the list of disabled
    modules folded. *)
Ltac run_norm :=
  cbv beta iota zeta delta
    [cli get_output_path configure_logging set_quiet_mode print_error
     print_warning print_info os_path_exists click_prompt click_confirm
     create_cloud_init_config when bind emit sys_exit ret trace outcome
     app fst snd andb orb negb existsb is_generator_call
     is_filesystem_access is_operator_question is_prompt is_confirm
     is_warning gc_output_path gc_disabled_configs].

(** Case analysis on every test the driver makes on its way; hypotheses
    about the run are to be in the goal. *)
Ltac split_run a w :=
  try unfold chosen_path; try unfold cli;
  destruct (interactive a); destruct (module_flag_given a);
  destruct (quiet a); destruct (force a); run_norm;
  repeat match goal with
    | |- context [String.eqb ?x ?y] => destruct (String.eqb x y) eqn:?; run_norm
    | |- context [path_exists w ?p] => destruct (path_exists w p) eqn:?; run_norm
    | |- context [confirm_reply w ?t ?d] =>
        destruct (confirm_reply w t d) eqn:?; run_norm
    end.

(** * Properties of the driver *)

Example cli_plain :
  cli plain_args empty_disk =
  ([ConfigureLogging; PathExists "cloud-config.yaml" false;
    CreateCloudInitConfig
      (mkCall "cloud-config.yaml" false false None ["hostname"] false false)],
   Returned tt).
Proof. reflexivity. Qed.

Example cli_plain_existing :
  cli plain_args full_disk =
  ([ConfigureLogging; PathExists "cloud-config.yaml" true;
    PrintError (exists_message "cloud-config.yaml")],
   SysExit 1).
Proof. reflexivity. Qed.

Lemma module_flag_given_iff (a : Args) :
  module_flag_given a = true <->
  disable_apt a = true \/ disable_snap a = true \/ disable_ssh a = true \/
  disable_user a = true \/ enable_hostname a = true.
Proof.
  unfold module_flag_given.
  rewrite !orb_true_iff. tauto.
Qed.

(** The run of a rejected combination of options, whatever the world. *)
Lemma conflict_run (a : Args) (w : World) :
  interactive a = true -> module_flag_given a = true ->
  cli a w =
  (ConfigureLogging :: (if quiet a then [SetQuietMode true] else [])
     ++ [PrintError conflict_message],
   SysExit 1).
Proof.
  intros Hi Hm. unfold cli. rewrite Hi, Hm.
  destruct (quiet a); reflexivity.
Qed.

(** C1: when interactive mode comes with one of the flags disable-apt,
    disable-snap, disable-ssh, disable-user or enable-hostname, the run
    prints the conflict and leaves with code 1; its whole trace is the
    logging set-up, the quiet switch if asked for, and that message: no
    path is tested, the operator is asked nothing, and the generator,
    which runs the modules and writes the file, is not called. *)
Theorem conflict_exits_before_any_work (a : Args) (w : World) :
  interactive a = true ->
  disable_apt a = true \/ disable_snap a = true \/ disable_ssh a = true \/
  disable_user a = true \/ enable_hostname a = true ->
  outcome (cli a w) = SysExit 1 /\ (1 <> 0)%Z /\
  trace (cli a w) =
    ConfigureLogging :: (if quiet a then [SetQuietMode true] else [])
      ++ [PrintError conflict_message] /\
  existsb is_filesystem_access (trace (cli a w)) = false /\
  existsb is_generator_call (trace (cli a w)) = false /\
  existsb is_operator_question (trace (cli a w)) = false.
Proof.
  intros Hi Hm. apply module_flag_given_iff in Hm.
  rewrite (conflict_run a w Hi Hm). unfold trace, outcome.
  destruct (quiet a); cbn; repeat split; lia.
Qed.

Definition conflict_args : Args :=
  {| interactive := true; quiet := true; output_path := "out.yaml";
     force := false; gather_public_keys := false; password := None;
     disable_apt := false; disable_snap := false; disable_ssh := true;
     disable_user := false; enable_hostname := false;
     rename_to_ubuntu_user := false |}.

Lemma conflict_exits_before_any_work_witness :
  outcome (cli conflict_args full_disk) = SysExit 1 /\
  trace (cli conflict_args full_disk) =
    [ConfigureLogging; SetQuietMode true; PrintError conflict_message].
Proof.
  destruct (conflict_exits_before_any_work conflict_args full_disk)
    as (Ho & _ & Ht & _).
  - reflexivity.
  - right; right; left; reflexivity.
  - split; [exact Ho | exact Ht].
Defined.

(** C2: without interactive mode, when the output path exists and force
    was not given, the run prints the error and leaves with code 1; the
    generator is not called, so nothing is written. *)
Theorem existing_output_refused (a : Args) (w : World) :
  interactive a = false ->
  path_exists w (output_path a) = true ->
  force a = false ->
  outcome (cli a w) = SysExit 1 /\ (1 <> 0)%Z /\
  In (PrintError (exists_message (output_path a))) (trace (cli a w)) /\
  existsb is_generator_call (trace (cli a w)) = false.
Proof.
  intros Hi He Hf. unfold cli. rewrite Hi, Hf. run_norm. rewrite He.
  destruct (quiet a); run_norm; repeat split; try lia; simpl; auto.
Qed.

Lemma existing_output_refused_witness :
  outcome (cli plain_args full_disk) = SysExit 1 /\
  existsb is_generator_call (trace (cli plain_args full_disk)) = false.
Proof.
  destruct (existing_output_refused plain_args full_disk)
    as (Ho & _ & _ & Hg); try reflexivity.
  split; [exact Ho | exact Hg].
Defined.

(** What the generator is called with, when it is called. *)
Lemma generator_call_arguments (a : Args) (w : World) (call : GeneratorCall) :
  In (CreateCloudInitConfig call) (trace (cli a w)) ->
  call = call_for a (chosen_path a w).
Proof.
  unfold call_for.
  split_run a w; cbn [In]; intros H;
    repeat (destruct H as [H | H]; try discriminate; try contradiction);
    inversion H; reflexivity.
Qed.

(** C3: in interactive mode, when the operator answers no to the question
    whether the existing file may be overwritten, the run prints that it
    aborts and leaves with code 1, and the generator, which would write the
    file, is not called. *)
Theorem declined_overwrite_aborts (a : Args) (w : World)
    (text : string) (default : bool) :
  interactive a = true ->
  In (Confirm text default false) (trace (cli a w)) ->
  outcome (cli a w) = SysExit 1 /\ (1 <> 0)%Z /\
  existsb is_generator_call (trace (cli a w)) = false /\
  In (PrintError abort_message) (trace (cli a w)) /\
  text = confirm_text (chosen_path a w) /\
  path_exists w (chosen_path a w) = true.
Proof.
  intros _.
  assert (Hone : (1 <> 0)%Z) by lia. revert Hone.
  generalize (1 <> 0)%Z as one_not_zero.
  intros one_not_zero Hone.
  split_run a w; cbn [In]; intros H;
    repeat (destruct H as [H | H]; try discriminate; try contradiction);
    inversion H; subst; repeat split; auto; cbn [In]; intuition.
Qed.

Lemma declined_overwrite_aborts_witness :
  outcome (cli (interactive_args "out.yaml") full_disk) = SysExit 1 /\
  existsb is_generator_call
    (trace (cli (interactive_args "out.yaml") full_disk)) = false.
Proof.
  destruct (declined_overwrite_aborts (interactive_args "out.yaml") full_disk
              (confirm_text "out.yaml") false)
    as (Ho & _ & Hg & _).
  - reflexivity.
  - simpl. right; right; right; left. reflexivity.
  - split; [exact Ho | exact Hg].
Defined.

(** The members of the list of lines 137-147. *)
Lemma disabled_configs_members (a : Args) (n : string) :
  In n (disabled_configs a) <->
  In n (passed_disable_flags a) \/ (n = "hostname" /\ enable_hostname a = false).
Proof.
  unfold disabled_configs, passed_disable_flags, append_if.
  destruct (disable_apt a), (disable_snap a), (disable_ssh a),
    (disable_user a), (enable_hostname a); cbn [negb app In];
    intuition (try discriminate; subst; auto).
Qed.

(** C4, as stated, fails: a caller who passes no flag at all still has
    the hostname module in the disabled list the generator receives. *)
Lemma disabled_set_counterexample :
  passed_disable_flags plain_args = [] /\
  trace (cli plain_args empty_disk) =
    [ConfigureLogging; PathExists default_output_path false;
     CreateCloudInitConfig (call_for plain_args default_output_path)] /\
  gc_disabled_configs (call_for plain_args default_output_path) = ["hostname"] /\
  ~ (forall n, In n (disabled_configs plain_args) <->
               In n (passed_disable_flags plain_args)).
Proof.
  repeat split; try reflexivity.
  intros H. destruct (proj1 (H "hostname")).
  simpl. left. reflexivity.
Qed.

(** C4, amended: whenever the generator is called, the disabled list it
    receives holds apt, snap, ssh and user exactly when the caller passed
    the disable flag of that module, holds hostname exactly when the caller
    did not pass enable-hostname, and holds nothing else. *)
Theorem disabled_set_from_flags (a : Args) (w : World) (call : GeneratorCall) :
  In (CreateCloudInitConfig call) (trace (cli a w)) ->
  (In "apt" (gc_disabled_configs call) <-> disable_apt a = true) /\
  (In "snap" (gc_disabled_configs call) <-> disable_snap a = true) /\
  (In "ssh" (gc_disabled_configs call) <-> disable_ssh a = true) /\
  (In "user" (gc_disabled_configs call) <-> disable_user a = true) /\
  (In "hostname" (gc_disabled_configs call) <-> enable_hostname a = false) /\
  (forall n, In n (gc_disabled_configs call) ->
             In n ["apt"; "snap"; "ssh"; "user"; "hostname"]).
Proof.
  intros H. rewrite (generator_call_arguments a w call H).
  cbn [call_for gc_disabled_configs].
  unfold disabled_configs, append_if.
  destruct (disable_apt a), (disable_snap a), (disable_ssh a),
    (disable_user a), (enable_hostname a); cbn [negb app In];
    intuition (try discriminate; subst; auto).
Qed.

Lemma disabled_set_from_flags_witness :
  In "hostname" (gc_disabled_configs (call_for plain_args default_output_path))
  <-> enable_hostname plain_args = false.
Proof.
  destruct (disabled_set_from_flags plain_args empty_disk
              (call_for plain_args default_output_path))
    as (_ & _ & _ & _ & Hh & _).
  - simpl. right; right; left. reflexivity.
  - exact Hh.
Defined.

(** C8, as stated, fails: force given together with interactive mode and a
    module flag prints the conflict and leaves; no warning is printed. *)
Lemma force_warning_counterexample :
  force forced_conflict_args = true /\
  forall w : World,
    cli forced_conflict_args w =
      ([ConfigureLogging; PrintError conflict_message], SysExit 1) /\
    existsb is_warning (trace (cli forced_conflict_args w)) = false.
Proof.
  split; [reflexivity | intros w; split; reflexivity].
Qed.

(** C8, amended: whenever force is given and the run is not one that the
    test of interactive mode against the module flags rejects, the warning
    that the output file exists and will be overwritten is printed, whether
    the path exists or not. *)
Theorem force_always_warns (a : Args) (w : World) :
  force a = true ->
  interactive a && module_flag_given a = false ->
  In (PrintWarning (overwrite_message (output_path a))) (trace (cli a w)) /\
  In (PathExists (output_path a) (path_exists w (output_path a)))
     (trace (cli a w)).
Proof.
  split_run a w; intros Hf Hc; try discriminate; cbn [In]; intuition.
Qed.

Lemma force_always_warns_witness :
  In (PrintWarning (overwrite_message "cloud-config.yaml"))
     (trace (cli forced_args empty_disk)) /\
  In (PrintWarning (overwrite_message "cloud-config.yaml"))
     (trace (cli forced_args full_disk)).
Proof.
  split.
  - apply (force_always_warns forced_args empty_disk); reflexivity.
  - apply (force_always_warns forced_args full_disk); reflexivity.
Defined.

(** C9, as stated, fails: interactive mode with force and enable-hostname
    asks the operator nothing, but it does not call the generator either. *)
Lemma interactive_force_counterexample :
  interactive forced_hostname_args = true /\
  force forced_hostname_args = true /\
  forall w : World,
    outcome (cli forced_hostname_args w) = SysExit 1 /\
    existsb is_generator_call (trace (cli forced_hostname_args w)) = false.
Proof.
  repeat split.
Qed.

(** C9, amended: in interactive mode with force the operator is neither
    prompted for the path nor asked to confirm, and nothing of
    [get_output_path] happens, whatever else was given; when no module
    flag was given the generator is called directly with the caller's
    path; otherwise the run leaves at the test of line 124 and the
    generator is not called. *)
Theorem interactive_force_skips_questions (a : Args) (w : World) :
  interactive a = true ->
  force a = true ->
  (existsb is_operator_question (trace (cli a w)) = false /\
   existsb is_info_message (trace (cli a w)) = false /\
   ~ In (PrintError abort_message) (trace (cli a w))) /\
  (module_flag_given a = false ->
   cli a w =
     (ConfigureLogging :: (if quiet a then [SetQuietMode true] else [])
        ++ [PathExists (output_path a) (path_exists w (output_path a));
            PrintWarning (overwrite_message (output_path a));
            CreateCloudInitConfig (call_for a (output_path a))],
      Returned tt)) /\
  (module_flag_given a = true ->
   cli a w =
     (ConfigureLogging :: (if quiet a then [SetQuietMode true] else [])
        ++ [PrintError conflict_message],
      SysExit 1) /\
   existsb is_generator_call (trace (cli a w)) = false).
Proof.
  unfold call_for.
  split_run a w; intros Hi Hf; try discriminate;
    (split; [| split; intros Hm; try discriminate; repeat split]);
    (split; [reflexivity | split; [reflexivity |]]);
    cbn [In]; intuition discriminate.
Qed.

Lemma interactive_force_skips_questions_witness :
  cli forced_interactive_args full_disk =
    ([ConfigureLogging; PathExists "out.yaml" true;
      PrintWarning (overwrite_message "out.yaml");
      CreateCloudInitConfig (call_for forced_interactive_args "out.yaml")],
     Returned tt).
Proof.
  destruct (interactive_force_skips_questions forced_interactive_args full_disk)
    as (_ & H & _); [reflexivity | reflexivity |].
  apply H. reflexivity.
Defined.

(** [get_output_path] by itself: the prompt is issued exactly for the
    default path, and an existing chosen path is always asked about. *)
Lemma get_output_path_run (path : string) (w : World) :
  let chosen :=
    if String.eqb path default_output_path
    then prompt_reply w prompt_text default_output_path
    else path in
  let asked :=
    if String.eqb path default_output_path
    then [Prompt prompt_text default_output_path chosen]
    else [] in
  get_output_path path w =
    if path_exists w chosen
    then if confirm_reply w (confirm_text chosen) false
         then (asked ++ [PrintInfo (selected_message chosen);
                         PathExists chosen true;
                         Confirm (confirm_text chosen) false true],
               Returned chosen)
         else (asked ++ [PrintInfo (selected_message chosen);
                         PathExists chosen true;
                         Confirm (confirm_text chosen) false false;
                         PrintError abort_message],
               SysExit 1)
    else (asked ++ [PrintInfo (selected_message chosen);
                    PathExists chosen false],
          Returned chosen).
Proof.
  cbv zeta. unfold get_output_path.
  destruct (String.eqb path default_output_path); run_norm;
    match goal with
    | |- context [path_exists w ?p] => destruct (path_exists w p); run_norm
    end;
    try reflexivity;
    match goal with
    | |- context [confirm_reply w ?t ?d] => destruct (confirm_reply w t d)
    end; reflexivity.
Qed.

(** C10, as stated, fails: interactive mode without force but with
    disable-snap leaves at the test of line 124, and the existing output
    file is never asked about. *)
Lemma interactive_path_counterexample :
  interactive snapless_interactive_args = true /\
  force snapless_interactive_args = false /\
  path_exists full_disk (output_path snapless_interactive_args) = true /\
  trace (cli snapless_interactive_args full_disk) =
    [ConfigureLogging; PrintError conflict_message] /\
  existsb is_confirm (trace (cli snapless_interactive_args full_disk)) = false.
Proof.
  repeat split.
Qed.

(** C10, amended: in interactive mode without force, the operator is
    prompted for the path only if the caller left it at its default, and a
    path that differs from the default reaches the generator unchanged;
    when moreover none of the module flags that interactive mode rejects
    was given, the prompt is issued exactly for the default path and, in
    both cases, a chosen path that exists is asked about before anything
    is written. *)
Theorem interactive_path_choice (a : Args) (w : World) :
  interactive a = true ->
  force a = false ->
  (forall text default answer,
     In (Prompt text default answer) (trace (cli a w)) ->
     output_path a = default_output_path) /\
  (output_path a <> default_output_path ->
   existsb is_prompt (trace (cli a w)) = false /\
   forall call, In (CreateCloudInitConfig call) (trace (cli a w)) ->
                gc_output_path call = output_path a) /\
  (module_flag_given a = false ->
   existsb is_prompt (trace (cli a w))
     = String.eqb (output_path a) default_output_path /\
   (path_exists w (chosen_path a w) = true ->
    In (Confirm (confirm_text (chosen_path a w)) false
          (confirm_reply w (confirm_text (chosen_path a w)) false))
       (trace (cli a w)))).
Proof.
  intros Hi Hf. split; [| split].
  - intros text default answer. revert Hi Hf.
    split_run a w; intros Hi Hf; try discriminate; cbn [In]; intros H;
      try (apply String.eqb_eq; assumption);
      repeat (destruct H as [H | H]; try discriminate; try contradiction).
  - intros Hne. apply String.eqb_neq in Hne. split.
    + revert Hi Hf Hne.
      split_run a w; intros Hi Hf Hne; try discriminate; reflexivity.
    + intros call Hc. rewrite (generator_call_arguments a w call Hc).
      unfold chosen_path. rewrite Hi, Hf, Hne. reflexivity.
  - revert Hi Hf.
    split_run a w; intros Hi Hf Hm; try discriminate;
      (split; [reflexivity | intros He; try discriminate; cbn [In]; intuition]).
Qed.

Lemma interactive_path_choice_witness :
  existsb is_prompt (trace (cli (interactive_args "out.yaml") full_disk))
    = false /\
  existsb is_prompt
    (trace (cli (interactive_args default_output_path) full_disk)) = true.
Proof.
  split.
  - destruct (interactive_path_choice (interactive_args "out.yaml") full_disk)
      as (_ & H & _); [reflexivity | reflexivity |].
    destruct H as (H & _); [discriminate | exact H].
  - destruct (interactive_path_choice
                (interactive_args default_output_path) full_disk)
      as (_ & _ & H); [reflexivity | reflexivity |].
    destruct H as (H & _); [reflexivity | exact H].
Defined.

(** * Properties of the assembly engine *)

Example enabled_modules_default :
  enabled_modules ["hostname"] = [apt; snap; ssh; user].
Proof. reflexivity. Qed.

Example enabled_modules_scenario :
  enabled_modules ["snap"; "hostname"] = [apt; ssh; user].
Proof. reflexivity. Qed.

Lemma module_order_sorted : StronglySorted before module_order.
Proof.
  unfold module_order, before.
  repeat (constructor; [| repeat constructor; simpl; lia]).
  constructor.
Qed.

Lemma module_order_complete (m : ModuleName) : In m module_order.
Proof. destruct m; simpl; tauto. Qed.

Lemma module_index_injective (m1 m2 : ModuleName) :
  module_index m1 = module_index m2 -> m1 = m2.
Proof. destruct m1, m2; simpl; intros H; try reflexivity; discriminate. Qed.

(** Filtering keeps a list in order. *)
Lemma filter_sorted {A} (R : A -> A -> Prop) (f : A -> bool) (l : list A) :
  StronglySorted R l -> StronglySorted R (filter f l).
Proof.
  induction 1 as [| x l Hs IH Hx]; simpl.
  - constructor.
  - destruct (f x); [| exact IH].
    constructor; [exact IH |].
    rewrite Forall_forall in *. intros y Hy.
    apply filter_In in Hy. apply Hx, Hy.
Qed.

(** In a sorted list, what follows an element is above it. *)
Lemma sorted_split {A} (R : A -> A -> Prop) (l1 l2 : list A) (x : A) :
  StronglySorted R (l1 ++ x :: l2) -> Forall (R x) l2.
Proof.
  induction l1 as [| y l1 IH]; simpl; intros H;
    apply StronglySorted_inv in H; destruct H as [Hs Hx].
  - exact Hx.
  - apply IH, Hs.
Qed.

Lemma is_disabled_iff (ds : DisabledSet) (m : ModuleName) :
  is_disabled ds m = true <-> In (module_name m) ds.
Proof.
  unfold is_disabled. rewrite existsb_exists. split.
  - intros (n & Hn & He). apply String.eqb_eq in He. subst n. exact Hn.
  - intros H. exists (module_name m). split; [exact H | apply String.eqb_refl].
Qed.

Lemma enabled_modules_sorted (ds : DisabledSet) :
  StronglySorted before (enabled_modules ds).
Proof. apply filter_sorted, module_order_sorted. Qed.

Lemma enabled_modules_members (ds : DisabledSet) (m : ModuleName) :
  In m (enabled_modules ds) <-> ~ In (module_name m) ds.
Proof.
  unfold enabled_modules. rewrite filter_In, negb_true_iff.
  rewrite <- is_disabled_iff.
  destruct (is_disabled ds m); split.
  - intros [_ H]. discriminate.
  - intros H. exfalso. apply H. reflexivity.
  - intros _ H. discriminate.
  - intros _. split; [apply module_order_complete | reflexivity].
Qed.

(** The driver's list, read back as modules. *)
Lemma disabled_configs_in_order (a : Args) :
  disabled_configs a =
  map module_name (filter (is_disabled (disabled_configs a)) module_order).
Proof.
  unfold disabled_configs, append_if.
  destruct (disable_apt a), (disable_snap a), (disable_ssh a),
    (disable_user a), (enable_hostname a); reflexivity.
Qed.

(** C5: for every combination of flags the list of disabled modules that
    the driver builds is a selection from apt, snap, ssh, user, hostname
    in that order, and for every disabled set the modules the engine goes
    through are the remaining ones, again in that order. *)
Theorem modules_in_fixed_order (a : Args) (ds : DisabledSet) :
  (disabled_configs a =
     map module_name (filter (is_disabled (disabled_configs a)) module_order) /\
   StronglySorted before
     (filter (is_disabled (disabled_configs a)) module_order)) /\
  (module_order = [apt; snap; ssh; user; hostname] /\
   StronglySorted before (enabled_modules ds) /\
   forall m, In m (enabled_modules ds) <-> ~ In (module_name m) ds).
Proof.
  split; [split | split; [| split]].
  - apply disabled_configs_in_order.
  - apply filter_sorted, module_order_sorted.
  - reflexivity.
  - apply enabled_modules_sorted.
  - apply enabled_modules_members.
Qed.

Section EngineProperties.

Variables Host Value GatherError : Type.
Variable gather :
  ModuleName -> GatherContext -> Prompter -> Host
  -> GatherResult Value GatherError * Host.

(** Gathering inspects the host and leaves it as it was (section 5). *)
Hypothesis gather_read_only : read_only gather.

Lemma gather_all_read_only (ms : list ModuleName) (ctx : GatherContext)
    (p : Prompter) (h : Host) :
  snd (gather_all gather ms ctx p h) = h.
Proof.
  induction ms as [| m ms IH]; simpl; [reflexivity |].
  pose proof (gather_read_only m ctx p h) as Hm.
  destruct (gather m ctx p h) as [r h']. simpl in Hm. subst h'.
  destruct r as [f | | e]; simpl.
  - destruct (gather_all gather ms ctx p h) as [[fs | err] h''];
      simpl in *; exact IH.
  - exact IH.
  - reflexivity.
Qed.

Lemma assemble_read_only (ds : DisabledSet) (ctx : GatherContext)
    (p : Prompter) (h : Host) :
  snd (assemble gather ds ctx p h) = h.
Proof.
  unfold assemble.
  pose proof (gather_all_read_only (enabled_modules ds) ctx p h) as H.
  destruct (gather_all gather (enabled_modules ds) ctx p h)
    as [[fs | [m e]] h']; simpl in *; exact H.
Qed.

(** When, for a context, the modules do not consult the prompt capability
    (as outside interactive mode, section 4.1), neither does the result. *)
Lemma assemble_ignores_operator (ds : DisabledSet) (ctx : GatherContext)
    (p1 p2 : Prompter) (h : Host) :
  (forall m h0, gather m ctx p1 h0 = gather m ctx p2 h0) ->
  assemble gather ds ctx p1 h = assemble gather ds ctx p2 h.
Proof.
  intros Hsame. unfold assemble.
  assert (Hall : forall ms h0,
            gather_all gather ms ctx p1 h0 = gather_all gather ms ctx p2 h0).
  { induction ms as [| m ms IH]; intros h0; simpl; [reflexivity |].
    rewrite Hsame. destruct (gather m ctx p2 h0) as [[f | | e] h'];
      [rewrite IH | apply IH |]; reflexivity. }
  rewrite Hall. reflexivity.
Qed.


(** The first module of a list that fails decides the gathering. *)
Lemma gather_all_first_failure (ms : list ModuleName) (ctx : GatherContext)
    (p : Prompter) (h : Host) (m : ModuleName) (e : GatherError) :
  In m ms -> gather_fails gather ctx p h m e ->
  exists pre m' e' post,
    ms = pre ++ m' :: post /\
    gather_fails gather ctx p h m' e' /\
    (forall m0 e0, In m0 pre -> ~ gather_fails gather ctx p h m0 e0) /\
    fst (gather_all gather ms ctx p h) = inr (m', e').
Proof.
  unfold gather_fails.
  induction ms as [| m0 ms IH]; simpl; intros Hin Hfail; [contradiction |].
  pose proof (gather_read_only m0 ctx p h) as Hro.
  destruct (gather m0 ctx p h) as [r h'] eqn:Hg. simpl in Hro. subst h'.
  assert (Hrest : forall r0, r = r0 -> (forall e0, r0 <> GatherFailed e0) ->
            In m ms).
  { intros r0 Hr Hok. destruct Hin as [-> | Hin]; [| exact Hin].
    rewrite Hg in Hfail. simpl in Hfail. subst r. subst r0.
    exfalso. apply (Hok e). reflexivity. }
  destruct r as [f | | e0].
  - destruct (IH (Hrest _ eq_refl ltac:(discriminate)) Hfail)
      as (pre & m' & e' & post & -> & Hf' & Hpre & Hres).
    exists (m0 :: pre), m', e', post. repeat split; trivial.
    + intros m1 e1 [<- | H1]; [rewrite Hg; discriminate | apply Hpre, H1].
    + destruct (gather_all gather (pre ++ m' :: post) ctx p h)
        as [[fs | err] h'']; simpl in *; [discriminate | exact Hres].
  - destruct (IH (Hrest _ eq_refl ltac:(discriminate)) Hfail)
      as (pre & m' & e' & post & -> & Hf' & Hpre & Hres).
    exists (m0 :: pre), m', e', post. repeat split; trivial.
    intros m1 e1 [<- | H1]; [rewrite Hg; discriminate | apply Hpre, H1].
  - exists [], m0, e0, ms. repeat split; trivial.
    + rewrite Hg. reflexivity.
    + intros m1 e1 [].
Qed.

(** C7: if a module that is not disabled fails to gather, [assemble]
    returns [Failed] for the first module, in the fixed order, that
    fails, with that module's error, and never a Document; when the
    failing module is the first to fail (as ssh is when apt and snap
    gather), it is the one the result names. *)
Theorem assemble_fails_fast (ds : DisabledSet) (ctx : GatherContext)
    (p : Prompter) (h : Host) (m : ModuleName) (e : GatherError) :
  In m (enabled_modules ds) ->
  gather_fails gather ctx p h m e ->
  (exists m' e',
     fst (assemble gather ds ctx p h) = Failed m' e' /\
     In m' (enabled_modules ds) /\
     gather_fails gather ctx p h m' e' /\
     (forall m0 e0, In m0 (enabled_modules ds) -> before m0 m' ->
                    ~ gather_fails gather ctx p h m0 e0) /\
     ((forall m0 e0, In m0 (enabled_modules ds) -> before m0 m ->
                     ~ gather_fails gather ctx p h m0 e0) ->
      m' = m /\ e' = e)) /\
  (forall d, fst (assemble gather ds ctx p h) <> Succeeded d).
Proof.
  intros Hin Hfail.
  destruct (gather_all_first_failure _ Hin Hfail)
    as (pre & m' & e' & post & Hsplit & Hf' & Hpre & Hres).
  assert (Hasm : fst (assemble gather ds ctx p h) = Failed m' e').
  { unfold assemble.
    destruct (gather_all gather (enabled_modules ds) ctx p h)
      as [[fs | [m1 e1]] h']; simpl in *; congruence. }
  pose proof (enabled_modules_sorted ds) as Hsorted.
  rewrite Hsplit in Hsorted.
  assert (Hin' : In m' (enabled_modules ds)).
  { rewrite Hsplit. apply in_or_app. right. left. reflexivity. }
  assert (Hmin : forall m0 e0, In m0 (enabled_modules ds) -> before m0 m' ->
                   ~ gather_fails gather ctx p h m0 e0).
  { intros m0 e0 H0 Hb. rewrite Hsplit in H0.
    apply in_app_or in H0. destruct H0 as [H0 | [<- | H0]].
    - apply Hpre, H0.
    - unfold before in Hb. lia.
    - pose proof (sorted_split _ _ _ Hsorted) as Hpost.
      rewrite Forall_forall in Hpost. specialize (Hpost _ H0).
      unfold before in *. lia. }
  split.
  - exists m', e'.
    split; [exact Hasm |]. split; [exact Hin' |].
    split; [exact Hf' |]. split; [exact Hmin |].
    intros Hfirst.
    assert (Hmm : m' = m).
    { destruct (Nat.lt_trichotomy (module_index m') (module_index m))
        as [Hlt | [Heq | Hgt]].
      - exfalso. apply (Hfirst m' e' Hin' Hlt Hf').
      - apply module_index_injective, Heq.
      - exfalso. apply (Hmin m e Hin Hgt Hfail). }
    subst m'. split; [reflexivity |].
    unfold gather_fails in *. congruence.
  - intros d Hd. rewrite Hasm in Hd. discriminate.
Qed.

End EngineProperties.

(** The engine on the small host. *)
Example assemble_scenario :
  fst (assemble toy_gather ["snap"; "hostname"] toy_context toy_prompter "box")
  = Succeeded [("apt", "sources"); ("ssh_authorized_keys", "key");
               ("users", "box")].
Proof. reflexivity. Qed.

Example assemble_ssh_failure :
  fst (assemble toy_gather ["hostname"] toy_context toy_prompter "")
  = Failed ssh "permission denied".
Proof. reflexivity. Qed.

Lemma assemble_fails_fast_witness :
  fst (assemble toy_gather ["hostname"] toy_context toy_prompter "")
  = Failed ssh "permission denied".
Proof.
  destruct (@assemble_fails_fast _ _ _ toy_gather
              (fun m ctx p h => eq_refl)
              ["hostname"] toy_context toy_prompter "" ssh
              "permission denied")
    as [(m' & e' & Hasm & _ & _ & _ & Hfirst) _].
  - simpl. right; right; left. reflexivity.
  - reflexivity.
  - destruct Hfirst as [-> ->]; [| exact Hasm].
    intros m0 e0 _ Hb Hf. unfold before in Hb.
    destruct m0; simpl in Hb; try lia; discriminate Hf.
Defined.



(** * Further properties of the driver *)

(** ** [get_output_path] *)

Example get_output_path_renamed :
  get_output_path default_output_path
    (renaming_operator (String.eqb default_output_path)) =
  ([Prompt prompt_text default_output_path "fresh.yaml";
    PrintInfo (selected_message "fresh.yaml");
    PathExists "fresh.yaml" false],
   Returned "fresh.yaml").
Proof. reflexivity. Qed.

(** X1: a path that [get_output_path] returns is the one it settled on,
    and either it does not exist or the operator agreed, in this very
    call, to overwrite it. *)
Theorem get_output_path_returns_safe (path : string) (w : World) (p : string) :
  outcome (get_output_path path w) = Returned p ->
  p = selected_path path w /\
  (path_exists w p = false \/
   In (Confirm (confirm_text p) false true) (trace (get_output_path path w))).
Proof.
  rewrite get_output_path_run. cbv zeta. fold (selected_path path w).
  destruct (path_exists w (selected_path path w)) eqn:He;
    [destruct (confirm_reply w (confirm_text (selected_path path w)) false) |];
    unfold outcome, trace; cbn [fst snd]; intros H;
    try discriminate; inversion H; subst p; split; try reflexivity.
  - right. apply in_or_app. right. cbn [In]. tauto.
  - left. exact He.
Qed.

Lemma get_output_path_returns_safe_witness :
  "out.yaml" = selected_path "out.yaml" agreeing_operator /\
  (path_exists agreeing_operator "out.yaml" = false \/
   In (Confirm (confirm_text "out.yaml") false true)
      (trace (get_output_path "out.yaml" agreeing_operator))).
Proof.
  apply (get_output_path_returns_safe "out.yaml" agreeing_operator).
  reflexivity.
Defined.

(** X2: [get_output_path] leaves through [sys.exit] exactly when the path
    it settled on exists and the operator refuses to overwrite it, and
    then with code 1. *)
Theorem get_output_path_exit_iff (path : string) (w : World) (c : Z) :
  outcome (get_output_path path w) = SysExit c <->
  c = 1%Z /\
  path_exists w (selected_path path w) = true /\
  confirm_reply w (confirm_text (selected_path path w)) false = false.
Proof.
  rewrite get_output_path_run. cbv zeta. fold (selected_path path w).
  destruct (path_exists w (selected_path path w));
    [destruct (confirm_reply w (confirm_text (selected_path path w)) false) |];
    unfold outcome; cbn [snd]; split; intros H;
    try discriminate; try (destruct H as (_ & H1 & H2); discriminate).
  - inversion H. repeat split.
  - destruct H as (-> & _). reflexivity.
Qed.

(** X3: [get_output_path] never tests a path other than the one it
    settled on, and never tests more than once; it prompts only when it is
    given the default path; whenever it returns a path, it has announced
    that path and tested exactly it, once; whenever it leaves through
    [sys.exit], its one test found the settled path. *)
Theorem get_output_path_checks_selected (path : string) (w : World) :
  (forall q b, In (PathExists q b) (trace (get_output_path path w)) ->
     q = selected_path path w /\ b = path_exists w q) /\
  length (filter is_path_check (trace (get_output_path path w))) <= 1 /\
  (existsb is_prompt (trace (get_output_path path w)) = true ->
   path = default_output_path) /\
  (forall p, outcome (get_output_path path w) = Returned p ->
     filter is_path_check (trace (get_output_path path w)) =
       [PathExists p (path_exists w p)] /\
     In (PrintInfo (selected_message p)) (trace (get_output_path path w))) /\
  (forall c, outcome (get_output_path path w) = SysExit c ->
     filter is_path_check (trace (get_output_path path w)) =
       [PathExists (selected_path path w) true]).
Proof.
  rewrite get_output_path_run. cbv zeta. unfold selected_path.
  destruct (String.eqb path default_output_path) eqn:Hd;
    match goal with
    | |- context [path_exists w ?q] => destruct (path_exists w q) eqn:He
    end;
    try match goal with
    | |- context [confirm_reply w ?t ?d] => destruct (confirm_reply w t d)
    end;
    unfold trace, outcome;
    cbn [fst snd app filter is_path_check existsb is_prompt orb In length];
    (split; [| split; [lia | split; [| split]]]).
  all: try (intros q b H;
            repeat (destruct H as [H | H]; try discriminate; try contradiction);
            inversion H; subst; split; congruence).
  all: try (intros H; try discriminate; apply String.eqb_eq; exact Hd).
  all: try (intros p H; try discriminate; inversion H; subst;
            split; [congruence | tauto]).
  all: intros c H; try discriminate; reflexivity.
Qed.

(** ** [cli] *)

Example cli_everything_disabled :
  cli hostname_args empty_disk =
  ([ConfigureLogging; SetQuietMode true; PathExists "out.yaml" false;
    CreateCloudInitConfig
      (mkCall "out.yaml" false true (Some "secret")
         ["apt"; "snap"; "ssh"; "user"] true true)],
   Returned tt).
Proof. reflexivity. Qed.

(** X4: a call of the generator is the last effect of its run and the
    only such call; a run returns only after that call; a run that leaves
    through [sys.exit] does so with code 1, right after an error message,
    and without having called the generator. *)
Theorem generator_call_is_last (a : Args) (w : World) :
  (forall call, In (CreateCloudInitConfig call) (trace (cli a w)) ->
     last (trace (cli a w)) ConfigureLogging = CreateCloudInitConfig call /\
     existsb is_generator_call (removelast (trace (cli a w))) = false) /\
  (outcome (cli a w) = Returned tt ->
   In (CreateCloudInitConfig (call_for a (chosen_path a w))) (trace (cli a w))) /\
  (forall c, outcome (cli a w) = SysExit c ->
     c = 1%Z /\
     is_error_message (last (trace (cli a w)) ConfigureLogging) = true /\
     existsb is_generator_call (trace (cli a w)) = false).
Proof.
  unfold call_for. split_run a w;
    (split;
     [ intros call H; cbn [In] in H;
       repeat (destruct H as [H | H]; try discriminate; try contradiction);
       inversion H; split; reflexivity
     | split;
       [ intros H; try discriminate; cbn [In]; intuition
       | intros c H; try discriminate; inversion H; repeat split ] ]).
Qed.

(** X5: the generator is never called on an existing path unless force
    was given or the operator agreed, in this run, to overwrite that
    path. *)
Theorem no_silent_overwrite (a : Args) (w : World) (call : GeneratorCall) :
  In (CreateCloudInitConfig call) (trace (cli a w)) ->
  path_exists w (gc_output_path call) = true ->
  force a = true \/
  In (Confirm (confirm_text (gc_output_path call)) false true)
     (trace (cli a w)).
Proof.
  intros Hcall.
  pose proof (generator_call_arguments a w call Hcall) as Heq. subst call.
  cbn [call_for gc_output_path]. revert Hcall. unfold call_for.
  split_run a w; cbn [In]; intros Hcall He; try discriminate;
    intuition (try discriminate; auto).
Qed.

Lemma no_silent_overwrite_witness :
  force (interactive_args "out.yaml") = true \/
  In (Confirm (confirm_text "out.yaml") false true)
     (trace (cli (interactive_args "out.yaml") agreeing_operator)).
Proof.
  apply (no_silent_overwrite (interactive_args "out.yaml") agreeing_operator
           (call_for (interactive_args "out.yaml") "out.yaml")).
  - simpl. right; right; right; right. left. reflexivity.
  - reflexivity.
Defined.

(** X6: a run leaves through [sys.exit] in exactly three situations, and
    always with code 1: interactive mode with a module flag; no
    interactive mode, no force and an existing output path; interactive
    mode without force or module flag, an existing selected path and an
    operator who refuses to overwrite it. *)
Theorem cli_exit_iff (a : Args) (w : World) (c : Z) :
  outcome (cli a w) = SysExit c <->
  c = 1%Z /\
  ((interactive a = true /\ module_flag_given a = true) \/
   (interactive a = false /\ force a = false /\
    path_exists w (output_path a) = true) \/
   (interactive a = true /\ module_flag_given a = false /\ force a = false /\
    path_exists w (chosen_path a w) = true /\
    confirm_reply w (confirm_text (chosen_path a w)) false = false)).
Proof.
  split_run a w; (split; [intros H | intros (Hc & H)]);
    try discriminate;
    try (inversion H; split; [reflexivity | tauto]);
    try (subst c; reflexivity);
    exfalso; intuition discriminate.
Qed.

(** X7: the operator is asked something (path or confirmation) only in
    interactive mode without force and without module flag; in particular
    a run without interactive mode never waits for the operator. *)
Theorem questions_only_when_interactive (a : Args) (w : World) :
  existsb is_operator_question (trace (cli a w)) = true ->
  interactive a = true /\ force a = false /\ module_flag_given a = false.
Proof.
  split_run a w; intros H; try discriminate; repeat split.
Qed.

Lemma questions_only_when_interactive_witness :
  interactive (interactive_args "out.yaml") = true /\
  force (interactive_args "out.yaml") = false /\
  module_flag_given (interactive_args "out.yaml") = false.
Proof.
  apply (questions_only_when_interactive (interactive_args "out.yaml") full_disk).
  reflexivity.
Defined.

(** X8: the only warning a run prints is the overwrite warning for the
    caller's path, and it prints it only when force was given. *)
Theorem warning_only_when_forced (a : Args) (w : World) (msg : string) :
  In (PrintWarning msg) (trace (cli a w)) ->
  force a = true /\ msg = overwrite_message (output_path a).
Proof.
  split_run a w; cbn [In]; intros H;
    repeat (destruct H as [H | H]; try discriminate; try contradiction);
    inversion H; split; reflexivity.
Qed.

Lemma warning_only_when_forced_witness :
  force forced_args = true /\
  overwrite_message "cloud-config.yaml" =
    overwrite_message (output_path forced_args).
Proof.
  apply (warning_only_when_forced forced_args empty_disk).
  simpl. right; right. left. reflexivity.
Defined.

(** X9: whatever way a run takes to the generator, the options
    interactive, gather-public-keys, password, rename-to-ubuntu-user and
    quiet reach it exactly as the caller gave them. *)
Theorem generator_receives_options (a : Args) (w : World) (call : GeneratorCall) :
  In (CreateCloudInitConfig call) (trace (cli a w)) ->
  gc_interactive call = interactive a /\
  gc_gather_public_keys call = gather_public_keys a /\
  gc_password call = password a /\
  gc_rename_to_ubuntu_user call = rename_to_ubuntu_user a /\
  gc_quiet call = quiet a.
Proof.
  intros H. rewrite (generator_call_arguments a w call H).
  repeat split.
Qed.

Lemma generator_receives_options_witness :
  gc_password (call_for hostname_args "out.yaml") = password hostname_args.
Proof.
  apply (generator_receives_options hostname_args empty_disk
           (call_for hostname_args "out.yaml")).
  simpl. right; right; right. left. reflexivity.
Defined.

(** X10: an interactive run that reaches the generator always hands it
    the disabled list with hostname alone: the test of line 124 has let
    through no disable flag and no enable-hostname. *)
Theorem interactive_disables_only_hostname (a : Args) (w : World)
    (call : GeneratorCall) :
  interactive a = true ->
  In (CreateCloudInitConfig call) (trace (cli a w)) ->
  gc_disabled_configs call = ["hostname"].
Proof.
  intros Hi Hcall. destruct (module_flag_given a) eqn:Hm.
  - rewrite (conflict_run a w Hi Hm) in Hcall. unfold trace in Hcall.
    cbn [fst] in Hcall. destruct (quiet a); cbn [app In] in Hcall;
      repeat (destruct Hcall as [Hcall | Hcall];
              try discriminate; try contradiction).
  - rewrite (generator_call_arguments a w call Hcall).
    cbn [call_for gc_disabled_configs].
    unfold module_flag_given in Hm. rewrite !orb_false_iff in Hm.
    destruct Hm as ((((Ha & Hs) & Hh) & Hu) & Hn).
    unfold disabled_configs, append_if.
    rewrite Ha, Hs, Hh, Hu, Hn. reflexivity.
Qed.

Lemma interactive_disables_only_hostname_witness :
  gc_disabled_configs (call_for (interactive_args "out.yaml") "out.yaml")
  = ["hostname"].
Proof.
  apply (interactive_disables_only_hostname
           (interactive_args "out.yaml") empty_disk).
  - reflexivity.
  - simpl. right; right; right. left. reflexivity.
Defined.

(** X11: the disabled list never names a module twice and never has more
    than five entries; it is empty exactly when no disable flag was given
    and enable-hostname was. *)
Theorem disabled_configs_shape (a : Args) :
  NoDup (disabled_configs a) /\
  length (disabled_configs a) <= 5 /\
  (disabled_configs a = [] <->
   disable_apt a = false /\ disable_snap a = false /\ disable_ssh a = false /\
   disable_user a = false /\ enable_hostname a = true).
Proof.
  unfold disabled_configs, append_if.
  destruct (disable_apt a), (disable_snap a), (disable_ssh a),
    (disable_user a), (enable_hostname a); cbn [negb app length];
    (split; [| split; [lia |]]);
    try (repeat constructor; cbn [In]; intuition discriminate);
    split; intros H; try discriminate; try (repeat split; fail);
    destruct H as (H1 & H2 & H3 & H4 & H5); discriminate.
Qed.

(** X12: every run starts by configuring logging; quiet mode is switched
    on right after, exactly when quiet was given, and so before anything
    is printed; neither happens again. *)
Theorem setup_comes_first (a : Args) (w : World) :
  exists rest,
    trace (cli a w) =
      ConfigureLogging :: (if quiet a then [SetQuietMode true] else []) ++ rest /\
    existsb is_setup rest = false.
Proof.
  split_run a w; eexists; (split; [reflexivity | reflexivity]).
Qed.

(** X13: a run never tests a path other than the one it settles on for
    the generator, never tests more than once, and tests nothing when the
    test of line 124 rejects it; whenever the generator is called, exactly
    one test was made, on the path the generator is called with. *)
Theorem one_check_on_chosen_path (a : Args) (w : World) :
  (forall q b, In (PathExists q b) (trace (cli a w)) ->
     q = chosen_path a w /\ b = path_exists w q /\
     interactive a && module_flag_given a = false) /\
  length (filter is_path_check (trace (cli a w))) <= 1 /\
  (forall call, In (CreateCloudInitConfig call) (trace (cli a w)) ->
     filter is_path_check (trace (cli a w)) =
       [PathExists (gc_output_path call)
          (path_exists w (gc_output_path call))]).
Proof.
  split_run a w;
    (split;
     [ intros q b H; cbn [In] in H;
       repeat (destruct H as [H | H]; try discriminate; try contradiction);
       inversion H; subst; repeat split; congruence
     | split;
       [ cbn [filter is_path_check length]; lia
       | intros call H; cbn [In] in H;
         repeat (destruct H as [H | H]; try discriminate; try contradiction);
         inversion H; subst; cbn [filter is_path_check gc_output_path];
         congruence ] ]).
Qed.

(** X14: with force the filesystem and the operator have no say: the
    outcome and the call of the generator are the same in every world. *)
Theorem force_ignores_world (a : Args) (w1 w2 : World) :
  force a = true ->
  outcome (cli a w1) = outcome (cli a w2) /\
  filter is_generator_call (trace (cli a w1)) =
    filter is_generator_call (trace (cli a w2)).
Proof.
  intros Hf. unfold cli. rewrite Hf.
  destruct (interactive a), (module_flag_given a), (quiet a); run_norm;
    destruct (path_exists w1 (output_path a)),
             (path_exists w2 (output_path a)); split; reflexivity.
Qed.

Lemma force_ignores_world_witness :
  outcome (cli forced_args empty_disk) = outcome (cli forced_args full_disk) /\
  filter is_generator_call (trace (cli forced_args empty_disk)) =
    filter is_generator_call (trace (cli forced_args full_disk)).
Proof.
  apply (force_ignores_world forced_args empty_disk full_disk).
  reflexivity.
Defined.
